(** * The [build] command of the CLI: orchestration of build and app-shell render

    Shallow embedding of [packages/@angular/cli/commands/build.ts]:
    [BuildCommand.validate] and [BuildCommand.run].

    The command drives collaborators that live in other modules
    ([getAppFromConfig], the build task, the render-universal task, the
    [Version] assertions, Node's [path.join]).  They are taken as an
    interface ([Collaborators]); every call made through the interface is
    recorded, in order, in a call log, so that statements about which
    collaborator is invoked, with what argument and in which order are
    statements about that log.

    An [async] function whose awaited promises are resolved one after the
    other is a sequential program: [await e] is modelled as running [e] to
    completion, a rejected promise as a thrown exception. *)

From Stdlib Require Import String Ascii List Bool ZArith Lia Permutation.
Import ListNotations.
Open Scope list_scope.
Open Scope string_scope.

Set Implicit Arguments.

(** ** Data model *)

(** [BuildTaskOptions] ([BuildOptions] plus [statsJson]).  One field per entry
    of [baseBuildCommandOptions] and of the command's own option list, in the
    order of the table.  An option declared with a literal [default] is always
    set; any other may be [undefined], which is [None]. *)
Record BuildTaskOptions : Type := mkOptions {
  target : string;
  environment : option string;
  outputPath : option string;
  aot : option bool;
  sourcemaps : option bool;
  vendorChunk : option bool;
  commonChunk : option bool;
  baseHref : option string;
  deployUrl : option string;
  verbose : bool;
  progress : option bool;
  i18nFile : option string;
  i18nFormat : option string;
  locale : option string;
  missingTranslation : option string;
  extractCss : option bool;
  watch : bool;
  outputHashing : option string;
  poll : option Z;
  app : option string;
  deleteOutputPath : option bool;
  preserveSymlinks : option bool;
  extractLicenses : option bool;
  showCircularDependencies : option bool;
  buildOptimizer : option bool;
  namedChunks : option bool;
  subresourceIntegrity : bool;
  bundleDependencies : string;
  serviceWorker : bool;
  skipAppShell : bool;
  statsJson : bool
}.

(** [options.deployUrl = v] on the options object. *)
Definition set_deployUrl (v : option string) (o : BuildTaskOptions) : BuildTaskOptions :=
  mkOptions (target o) (environment o) (outputPath o) (aot o) (sourcemaps o)
    (vendorChunk o) (commonChunk o) (baseHref o) v (verbose o) (progress o)
    (i18nFile o) (i18nFormat o) (locale o) (missingTranslation o) (extractCss o)
    (watch o) (outputHashing o) (poll o) (app o) (deleteOutputPath o)
    (preserveSymlinks o) (extractLicenses o) (showCircularDependencies o)
    (buildOptimizer o) (namedChunks o) (subresourceIntegrity o)
    (bundleDependencies o) (serviceWorker o) (skipAppShell o) (statsJson o).

(** The object literal [{ ...options, app: v }]. *)
Definition spread_with_app (o : BuildTaskOptions) (v : option string) : BuildTaskOptions :=
  mkOptions (target o) (environment o) (outputPath o) (aot o) (sourcemaps o)
    (vendorChunk o) (commonChunk o) (baseHref o) (deployUrl o) (verbose o)
    (progress o) (i18nFile o) (i18nFormat o) (locale o) (missingTranslation o)
    (extractCss o) (watch o) (outputHashing o) (poll o) v (deleteOutputPath o)
    (preserveSymlinks o) (extractLicenses o) (showCircularDependencies o)
    (buildOptimizer o) (namedChunks o) (subresourceIntegrity o)
    (bundleDependencies o) (serviceWorker o) (skipAppShell o) (statsJson o).

(** The [appShell] entry of an application of the project configuration. *)
Record AppShell : Type := mkAppShell {
  shell_app : string;
  route : string
}.

(** What [run] reads of an application of the project configuration. *)
Record AppConfig : Type := mkApp {
  outDir : string;
  index : string;
  platform : string;
  appShell : option AppShell
}.

Record RenderUniversalTaskOptions : Type := mkRenderOptions {
  inputIndexPath : string;
  renderRoute : string;
  serverOutDir : string;
  outputIndexPath : string
}.

Record Project : Type := mkProject { root : string }.

(** The command object, as far as [validate] and [run] read it. *)
Record BuildCommand : Type := mkCommand { project : Project }.

(** ** String primitives of the host language *)

(** [s.substr(-1)]: the last character of [s] as a string, empty when [s]
    is.  Strings are sequences of 8-bit characters here; the separator is
    one character in either reading. *)
Fixpoint substr_last (s : string) : string :=
  match s with
  | EmptyString => EmptyString
  | String c rest =>
      match rest with
      | EmptyString => String c EmptyString
      | String _ _ => substr_last rest
      end
  end.

(** A string used as a condition is true unless it is empty. *)
Definition truthy (s : string) : bool := negb (s =? "").

(** ** Calls across the collaborator interface *)

Inductive Call : Type :=
| AssertAngularVersion (projectRoot : string)
| AssertTypescriptVersion (projectRoot : string)
| GetAppFromConfig (nameOrIndex : option string)
| BuildTaskRun (options : BuildTaskOptions)
| RenderUniversalTaskRun (options : RenderUniversalTaskOptions).

(** The collaborators of the command.  Each one is a transformer of an
    opaque [World] (file system, configuration, console) that returns a
    value or fails with an opaque [Failure].  The build task receives the
    options object and reads it; it does not assign to its fields. *)
Class Collaborators : Type := {
  World : Type;
  Failure : Type;
  BuildResult : Type;
  RenderResult : Type;
  assertAngularVersionIs2_3_1OrHigher : string -> World -> (Failure + unit) * World;
  assertTypescriptVersion : string -> World -> (Failure + unit) * World;
  getAppFromConfig : option string -> World -> (Failure + AppConfig) * World;
  buildTask_run : BuildTaskOptions -> World -> (Failure + BuildResult) * World;
  renderUniversalTask_run :
    RenderUniversalTaskOptions -> World -> (Failure + RenderResult) * World;
  join : list string -> string
}.

(** The double quote character, for messages that contain one. *)
Definition dquote : string := String (ascii_of_nat 34) EmptyString.

(** The message of the [SilentError] thrown by the platform guard. *)
Definition platformMessage : string :=
  "Shell app's platform is not " ++ dquote ++ "server" ++ dquote.

Section Command.

Context {C : Collaborators}.

(** What escapes a call: an error this file constructs, the [TypeError] of
    a property read on [null], or a collaborator's failure passed on
    unchanged. *)
Inductive Exception : Type :=
| SilentError (message : string)
| TypeError
| Rejected (f : Failure).

Inductive Completion (A : Type) : Type :=
| Returned (a : A)
| Threw (e : Exception).
Arguments Threw {A} e.

(** The state threaded through a run: the world, and the log of the calls
    made so far, oldest first. *)
Record Machine : Type := mkMachine {
  world : World;
  calls : list Call
}.

Definition start (w : World) : Machine := mkMachine w [].

Definition M (A : Type) : Type := Machine -> Completion A * Machine.

Definition ret {A} (a : A) : M A := fun m => (Returned a, m).

Definition throw {A} (e : Exception) : M A := fun m => (Threw e, m).

Definition bind {A B} (c : M A) (k : A -> M B) : M B :=
  fun m =>
    match c m with
    | (Returned a, m') => k a m'
    | (Threw e, m') => (Threw e, m')
    end.

(** One call of a collaborator: log it, run it on the current world, and
    turn a failure into an exception. *)
Definition perform {A} (c : Call) (h : World -> (Failure + A) * World) : M A :=
  fun m =>
    let (r, w') := h (world m) in
    (match r with
     | inr a => Returned a
     | inl f => Threw (Rejected f)
     end,
     mkMachine w' (calls m ++ [c])%list).

End Command.

Arguments Threw {C A} e.
Arguments Returned {C A} a.

Declare Scope command_scope.
Delimit Scope command_scope with command.
Notation "x <- c ;; k" := (bind c (fun x => k))
  (at level 61, c at next level, right associativity) : command_scope.
Notation "c ;;; k" := (bind c (fun _ => k))
  (at level 61, right associativity) : command_scope.
Open Scope command_scope.

Section BuildCommand.

Context {C : Collaborators}.

(** What [run] resolves to: the build task's result or the render task's. *)
Inductive RunResult : Type :=
| FromBuildTask (r : BuildResult)
| FromRenderTask (r : RenderResult).

(** [BuildCommand.validate]. *)
Definition validate (this : BuildCommand) (_options : BuildTaskOptions) : M bool :=
  perform (AssertAngularVersion (root (project this)))
          (assertAngularVersionIs2_3_1OrHigher (root (project this))) ;;;
  perform (AssertTypescriptVersion (root (project this)))
          (assertTypescriptVersion (root (project this))) ;;;
  ret true.

(** The first statement of [run]: add a trailing slash to [deployUrl] if
    it is set, not empty, and does not end with one.  The assignment is to
    the caller's object, which is the object later handed to the build
    task: the rest of [run] goes on with the value returned here. *)
Definition addTrailingSlash (options : BuildTaskOptions) : BuildTaskOptions :=
  match deployUrl options with
  | Some url =>
      if truthy url && negb (substr_last url =? "/")
      then set_deployUrl (Some (url ++ "/")) options
      else options
  | None => options
  end.

(** The constant [doAppShell] of [run]. *)
Definition doAppShell (options : BuildTaskOptions) : bool :=
  (target options =? "production") &&
  (match aot options with
   | None => true
   | Some b => Bool.eqb b true
   end) &&
  negb (skipAppShell options).

(** The constant [serverOptions] of [run]. *)
Definition serverOptions (options : BuildTaskOptions) (shell : AppShell) : BuildTaskOptions :=
  spread_with_app options (Some (shell_app shell)).

(** The constant [renderUniversalOptions] of [run]. *)
Definition renderUniversalOptions (this : BuildCommand) (clientApp : AppConfig)
    (shell : AppShell) (serverApp : AppConfig) : RenderUniversalTaskOptions :=
  {| inputIndexPath := join [root (project this); outDir clientApp; index clientApp];
     renderRoute := route shell;
     serverOutDir := join [root (project this); outDir serverApp];
     outputIndexPath := join [root (project this); outDir clientApp; index clientApp] |}.

(** The block that sets [serverApp]: resolve the shell's application and
    check its platform when there is a shell and [doAppShell] holds;
    [null] otherwise. *)
Definition resolveServerApp (clientApp : AppConfig) (doShell : bool) : M (option AppConfig) :=
  match appShell clientApp with
  | Some shell =>
      if doShell then
        serverApp <- perform (GetAppFromConfig (Some (shell_app shell)))
                             (getAppFromConfig (Some (shell_app shell))) ;;
        if negb (platform serverApp =? "server")
        then throw (SilentError platformMessage)
        else ret (Some serverApp)
      else ret None
  | None => ret None
  end.

(** [BuildCommand.run]. *)
Definition run (this : BuildCommand) (options0 : BuildTaskOptions) : M RunResult :=
  let options := addTrailingSlash options0 in
  clientApp <- perform (GetAppFromConfig (app options)) (getAppFromConfig (app options)) ;;
  let doShell := doAppShell options in
  serverApp <- resolveServerApp clientApp doShell ;;
  buildTaskResult <- perform (BuildTaskRun options) (buildTask_run options) ;;
  match appShell clientApp with
  | None => ret (FromBuildTask buildTaskResult)
  | Some shell =>
      if negb doShell then ret (FromBuildTask buildTaskResult)
      else
        perform (BuildTaskRun (serverOptions options shell))
                (buildTask_run (serverOptions options shell)) ;;;
        match serverApp with
        | None => throw TypeError
        | Some server =>
            r <- perform
                   (RenderUniversalTaskRun (renderUniversalOptions this clientApp shell server))
                   (renderUniversalTask_run (renderUniversalOptions this clientApp shell server)) ;;
            ret (FromRenderTask r)
        end
  end.

(** What the build task's first run leaves: its result, in the world it
    produced, after the calls made so far. *)
Definition afterClientBuild (o' : BuildTaskOptions) (w : World) (before : list Call)
  : Completion RunResult * Machine :=
  match buildTask_run o' w with
  | (inr b, w') =>
      (Returned (FromBuildTask b), mkMachine w' (before ++ [BuildTaskRun o']))
  | (inl f, w') => (Threw (Rejected f), mkMachine w' (before ++ [BuildTaskRun o']))
  end.

(** What the render task's run leaves. *)
Definition afterRender (ro : RenderUniversalTaskOptions) (w : World) (before : list Call)
  : Completion RunResult * Machine :=
  match renderUniversalTask_run ro w with
  | (inr r, w') =>
      (Returned (FromRenderTask r), mkMachine w' (before ++ [RenderUniversalTaskRun ro]))
  | (inl f, w') =>
      (Threw (Rejected f), mkMachine w' (before ++ [RenderUniversalTaskRun ro]))
  end.

(** Modelled from the spec: the command runner, which calls [validate] and
    then [run] on the same options, is not part of this file.  The
    specification orders a run as validation, normalization, resolution and
    builds, and ends it in error on any version-check failure. *)
Definition validateAndRun (this : BuildCommand) (options : BuildTaskOptions) : M RunResult :=
  validate this options ;;; run this options.

(** A computation that reads the world only: started after the calls
    [before], it does what it does from an empty log, and appends. *)
Definition appendsToLog {A} (c : M A) : Prop :=
  forall (w : World) (before : list Call),
    c (mkMachine w before) =
    (fst (c (start w)),
     mkMachine (world (snd (c (start w)))) (before ++ calls (snd (c (start w))))).

End BuildCommand.

(** ** Reading a call log *)

(** The options of the build task's runs, in order. *)
Fixpoint buildCalls (log : list Call) : list BuildTaskOptions :=
  match log with
  | [] => []
  | BuildTaskRun o :: rest => o :: buildCalls rest
  | _ :: rest => buildCalls rest
  end.

(** The options of the render task's runs, in order. *)
Fixpoint renderCalls (log : list Call) : list RenderUniversalTaskOptions :=
  match log with
  | [] => []
  | RenderUniversalTaskRun o :: rest => o :: renderCalls rest
  | _ :: rest => renderCalls rest
  end.

(** The selectors [getAppFromConfig] was called with, in order. *)
Fixpoint resolveCalls (log : list Call) : list (option string) :=
  match log with
  | [] => []
  | GetAppFromConfig s :: rest => s :: resolveCalls rest
  | _ :: rest => resolveCalls rest
  end.

(** [s] ends with the path separator. *)
Definition endsWithSeparator (s : string) : Prop := exists p, s = p ++ "/".

(** Two option records that agree on every field but [app]. *)
Definition sameExceptApp (a b : BuildTaskOptions) : Prop :=
  target a = target b /\ environment a = environment b /\
  outputPath a = outputPath b /\ aot a = aot b /\ sourcemaps a = sourcemaps b /\
  vendorChunk a = vendorChunk b /\ commonChunk a = commonChunk b /\
  baseHref a = baseHref b /\ deployUrl a = deployUrl b /\ verbose a = verbose b /\
  progress a = progress b /\ i18nFile a = i18nFile b /\
  i18nFormat a = i18nFormat b /\ locale a = locale b /\
  missingTranslation a = missingTranslation b /\ extractCss a = extractCss b /\
  watch a = watch b /\ outputHashing a = outputHashing b /\ poll a = poll b /\
  deleteOutputPath a = deleteOutputPath b /\
  preserveSymlinks a = preserveSymlinks b /\
  extractLicenses a = extractLicenses b /\
  showCircularDependencies a = showCircularDependencies b /\
  buildOptimizer a = buildOptimizer b /\ namedChunks a = namedChunks b /\
  subresourceIntegrity a = subresourceIntegrity b /\
  bundleDependencies a = bundleDependencies b /\
  serviceWorker a = serviceWorker b /\ skipAppShell a = skipAppShell b /\
  statsJson a = statsJson b.

(** The three option conditions of the app-shell decision. *)
Definition shellEligible (o : BuildTaskOptions) : Prop :=
  target o = "production" /\ (aot o = None \/ aot o = Some true) /\
  skipAppShell o = false.

(** ** A project to run the command on

    A stand-in for the collaborators: a configuration of four applications,
    a build task and a render task that record what they wrote in the world,
    version checks that depend on the project root. *)
Module Scenario.

Definition clientApp : AppConfig :=
  mkApp "dist" "index.html" "browser" (Some (mkAppShell "ssr" "/")).

Definition serverApp : AppConfig := mkApp "dist-server" "main.html" "server" None.

Definition plainApp : AppConfig := mkApp "dist-plain" "index.html" "browser" None.

(** A client whose shell names an application that is not a server one. *)
Definition brokenApp : AppConfig :=
  mkApp "dist-broken" "index.html" "browser" (Some (mkAppShell "plain" "/home")).

Definition lookup (nameOrIndex : option string) : string + AppConfig :=
  match nameOrIndex with
  | None => inr clientApp
  | Some n =>
      if n =? "ssr" then inr serverApp
      else if n =? "plain" then inr plainApp
      else if n =? "broken" then inr brokenApp
      else inl ("no app " ++ n)
  end.

Definition check (bad : string) (projectRoot : string) : string + unit :=
  if projectRoot =? bad then inl ("version too low in " ++ projectRoot) else inr tt.

Definition appName (o : BuildTaskOptions) : string :=
  match app o with
  | Some n => n
  | None => "default"
  end.

#[local] Instance project : Collaborators := {|
  World := list string;
  Failure := string;
  BuildResult := string;
  RenderResult := string;
  assertAngularVersionIs2_3_1OrHigher := fun r w => (check "/old-ng" r, w);
  assertTypescriptVersion := fun r w => (check "/old-ts" r, w);
  getAppFromConfig := fun s w => (lookup s, w);
  buildTask_run := fun o w =>
    let written := "bundle of " ++ appName o in (inr written, (w ++ [written])%list);
  renderUniversalTask_run := fun o w =>
    (inr ("shell at " ++ outputIndexPath o), (w ++ [outputIndexPath o])%list);
  join := String.concat "/"
|}.

Definition command : BuildCommand := mkCommand (mkProject "/work").

(** The same command in a project whose framework is too old. *)
Definition legacyCommand : BuildCommand := mkCommand (mkProject "/old-ng").

(** [ng build --target=t --app=a --deploy-url=d]: the three options as
    given, the others at the defaults of the option table. *)
Definition options (t : string) (a d : option string) : BuildTaskOptions :=
  {| target := t; environment := None; outputPath := None;
     aot := None; sourcemaps := None; vendorChunk := None; commonChunk := None;
     baseHref := None; deployUrl := d; verbose := false; progress := None;
     i18nFile := None; i18nFormat := None; locale := None;
     missingTranslation := None; extractCss := None; watch := false;
     outputHashing := None; poll := None; app := a;
     deleteOutputPath := None; preserveSymlinks := None;
     extractLicenses := None; showCircularDependencies := None;
     buildOptimizer := None; namedChunks := None;
     subresourceIntegrity := false; bundleDependencies := "none";
     serviceWorker := true; skipAppShell := false; statsJson := false |}.

(** A bare [ng build]. *)
Definition devOptions : BuildTaskOptions := options "development" None None.

Definition prodOptions (a d : option string) : BuildTaskOptions :=
  options "production" a d.

End Scenario.

(** ** The option table of the command *)

Module OptionTable.

(** The [type] of an option: a constructor name, the string ['Path'], or
    the list of the values allowed. *)
Inductive OptionType : Type :=
| TypeString
| TypeBoolean
| TypeNumber
| TypePath
| TypeOneOf (allowed : list string).

(** The [default] of an option: none, a literal, the entry of
    [buildConfigDefaults] under a key, or that entry when it is defined and
    [process.stdout.isTTY === true] otherwise. *)
Inductive Default : Type :=
| NoDefault
| DefaultString (s : string)
| DefaultBoolean (b : bool)
| FromBuildConfig (key : string)
| FromBuildConfigOrTTY (key : string).

(** A description is a string, or a template handed to [oneLine]. *)
Inductive Description : Type :=
| Plain (text : string)
| OneLine (template : string).

Record Option : Type := mkOption {
  name : string;
  type : OptionType;
  default : Default;
  aliases : list string;
  values : option (list string);
  description : Description
}.

(** The keys [buildConfigDefaults] is fetched with, under [defaults.build]. *)
Definition buildConfigPaths : list string :=
  ["sourcemaps"; "baseHref"; "progress"; "poll"; "deleteOutputPath";
   "preserveSymlinks"; "showCircularDependencies"; "commonChunk"; "namedChunks"].

Definition baseBuildCommandOptions : list Option := [
  mkOption "target" TypeString
    (DefaultString "development")
    ["t"] None
    (Plain "Defines the build target.");
  mkOption "environment" TypeString
    NoDefault
    ["e"] None
    (Plain "Defines the build environment.");
  mkOption "output-path" TypePath
    NoDefault
    ["op"] None
    (Plain "Path where output will be placed.");
  mkOption "aot" TypeBoolean
    NoDefault
    [] None
    (Plain "Build using Ahead of Time compilation.");
  mkOption "sourcemaps" TypeBoolean
    (FromBuildConfig "sourcemaps")
    ["sm"; "sourcemap"] None
    (Plain "Output sourcemaps.");
  mkOption "vendor-chunk" TypeBoolean
    NoDefault
    ["vc"] None
    (Plain "Use a separate bundle containing only vendor libraries.");
  mkOption "common-chunk" TypeBoolean
    (FromBuildConfig "commonChunk")
    ["cc"] None
    (Plain
       "Use a separate bundle containing code used across multiple bundles.");
  mkOption "base-href" TypeString
    (FromBuildConfig "baseHref")
    ["bh"] None
    (Plain "Base url for the application being built.");
  mkOption "deploy-url" TypeString
    NoDefault
    ["d"] None
    (Plain "URL where files will be deployed.");
  mkOption "verbose" TypeBoolean
    (DefaultBoolean false)
    ["v"] None
    (Plain "Adds more details to output logging.");
  mkOption "progress" TypeBoolean
    (FromBuildConfigOrTTY "progress")
    ["pr"] None
    (Plain "Log progress to the console while building.");
  mkOption "i18n-file" TypeString
    NoDefault
    [] None
    (Plain "Localization file to use for i18n.");
  mkOption "i18n-format" TypeString
    NoDefault
    [] None
    (Plain "Format of the localization file specified with --i18n-file.");
  mkOption "locale" TypeString
    NoDefault
    [] None
    (Plain "Locale to use for i18n.");
  mkOption "missing-translation" TypeString
    NoDefault
    [] None
    (Plain "How to handle missing translations for i18n.");
  mkOption "extract-css" TypeBoolean
    NoDefault
    ["ec"] None
    (Plain
       "Extract css from global styles onto css files instead of js ones.");
  mkOption "watch" TypeBoolean
    (DefaultBoolean false)
    ["w"] None
    (Plain "Run build when files change.");
  mkOption "output-hashing" TypeString
    NoDefault
    ["oh"] (Some ["none"; "all"; "media"; "bundles"])
    (Plain "Define the output filename cache-busting hashing mode.");
  mkOption "poll" TypeNumber
    (FromBuildConfig "poll")
    [] None
    (Plain
       "Enable and define the file watching poll time period (milliseconds).");
  mkOption "app" TypeString
    NoDefault
    ["a"] None
    (Plain "Specifies app name or index to use.");
  mkOption "delete-output-path" TypeBoolean
    (FromBuildConfig "deleteOutputPath")
    ["dop"] None
    (Plain "Delete output path before build.");
  mkOption "preserve-symlinks" TypeBoolean
    (FromBuildConfig "preserveSymlinks")
    [] None
    (Plain "Do not use the real path when resolving modules.");
  mkOption "extract-licenses" TypeBoolean
    NoDefault
    [] None
    (Plain
       "Extract all licenses in a separate file, in the case of production builds only.");
  mkOption "show-circular-dependencies" TypeBoolean
    (FromBuildConfig "showCircularDependencies")
    ["scd"] None
    (Plain "Show circular dependency warnings on builds.");
  mkOption "build-optimizer" TypeBoolean
    NoDefault
    [] None
    (Plain
       "Enables @angular-devkit/build-optimizer optimizations when using `--aot`.");
  mkOption "named-chunks" TypeBoolean
    (FromBuildConfig "namedChunks")
    ["nc"] None
    (Plain "Use file name for lazy loaded chunks.");
  mkOption "subresource-integrity" TypeBoolean
    (DefaultBoolean false)
    ["sri"] None
    (Plain "Enables the use of subresource integrity validation.");
  mkOption "bundle-dependencies" (TypeOneOf ["none"; "all"])
    (DefaultString "none")
    [] None
    (Plain ("Available on server platform only. Which external dependencies to bundle into "
            ++ "the module. By default, all of node_modules will be kept as requires."));
  mkOption "service-worker" TypeBoolean
    (DefaultBoolean true)
    ["sw"] None
    (Plain ("Generates a service worker config for production builds, if the app has "
            ++ "service worker enabled."));
  mkOption "skip-app-shell" TypeBoolean
    (DefaultBoolean false)
    [] None
    (Plain "Flag to prevent building an app shell")
].

(** The [options] of [BuildCommand]. *)
Definition options : list Option :=
  (baseBuildCommandOptions ++ [
  mkOption "stats-json" TypeBoolean
    (DefaultBoolean false)
    [] None
    (OneLine "Generates a `stats.json` file which can be analyzed using tools
       such as: `webpack-bundle-analyzer` or https://webpack.github.io/analyse.")
  ])%list.

(** The key of [buildConfigDefaults] an option's default reads, if any. *)
Definition configKey (o : Option) : option string :=
  match default o with
  | FromBuildConfig k | FromBuildConfigOrTTY k => Some k
  | _ => None
  end.

(** Every string a command line can name an option with. *)
Definition handles (table : list Option) : list string :=
  (map name table ++ flat_map aliases table)%list.

(** The keys of [buildConfigDefaults] the table reads. *)
Fixpoint configKeys (table : list Option) : list string :=
  match table with
  | [] => []
  | o :: rest =>
      match configKey o with
      | Some k => k :: configKeys rest
      | None => configKeys rest
      end
  end.

End OptionTable.

(** No string occurs twice. *)
Fixpoint distinct (l : list string) : bool :=
  match l with
  | [] => true
  | x :: rest => negb (existsb (String.eqb x) rest) && distinct rest
  end.

(** ** A project whose collaborators can fail

    The project of [Scenario], with one more application, whose shell names
    an application that does not exist; the build task fails on the
    applications listed in [failing], the render task fails when
    [renderFails] is set.  A failed task has still written to the world. *)
Module Faulty.

Definition danglingApp : AppConfig :=
  mkApp "dist-dangling" "index.html" "browser" (Some (mkAppShell "missing" "/")).

Definition lookup (nameOrIndex : option string) : string + AppConfig :=
  match nameOrIndex with
  | Some n => if n =? "dangling" then inr danglingApp else Scenario.lookup (Some n)
  | None => Scenario.lookup None
  end.

Definition project (failing : list string) (renderFails : bool) : Collaborators := {|
  World := list string;
  Failure := string;
  BuildResult := string;
  RenderResult := string;
  assertAngularVersionIs2_3_1OrHigher := fun r w => (Scenario.check "/old-ng" r, w);
  assertTypescriptVersion := fun r w => (Scenario.check "/old-ts" r, w);
  getAppFromConfig := fun s w => (lookup s, w);
  buildTask_run := fun o w =>
    let partial := "partial bundle of " ++ Scenario.appName o in
    let written := "bundle of " ++ Scenario.appName o in
    if existsb (String.eqb (Scenario.appName o)) failing
    then (inl ("cannot build " ++ Scenario.appName o), (w ++ [partial])%list)
    else (inr written, (w ++ [written])%list);
  renderUniversalTask_run := fun o w =>
    if renderFails then (inl "cannot render", w)
    else (inr ("shell at " ++ outputIndexPath o), (w ++ [outputIndexPath o])%list);
  join := String.concat "/"
|}.

Definition healthy : Collaborators := project [] false.

Definition clientBuildFails : Collaborators := project ["default"] false.

Definition serverBuildFails : Collaborators := project ["ssr"] false.

End Faulty.

(** ** The string primitives *)

Lemma substr_last_append_slash (s : string) : substr_last (s ++ "/") = "/".
Proof.
  induction s as [|c s IH]; [reflexivity|].
  change (String c s ++ "/") with (String c (s ++ "/")).
  destruct s as [|d s]; [reflexivity|].
  exact IH.
Qed.

Lemma substr_last_slash_inv (s : string) :
  substr_last s = "/" -> endsWithSeparator s.
Proof.
  induction s as [|c s IH]; simpl; [discriminate|].
  destruct s as [|d s].
  - intros H. injection H as ->. now exists "".
  - intros H. destruct (IH H) as [p Hp]. exists (String c p).
    simpl. now rewrite <- Hp.
Qed.

Lemma endsWithSeparator_substr_last (s : string) :
  endsWithSeparator s <-> substr_last s = "/".
Proof.
  split; [|apply substr_last_slash_inv].
  intros [p ->]. apply substr_last_append_slash.
Qed.

Lemma endsWithSeparator_eqb (s : string) :
  (substr_last s =? "/") = true <-> endsWithSeparator s.
Proof.
  rewrite String.eqb_eq. symmetry. apply endsWithSeparator_substr_last.
Qed.

Lemma empty_not_endsWithSeparator : ~ endsWithSeparator "".
Proof. intros [p Hp]. destruct p; discriminate. Qed.

Lemma truthy_nonempty (s : string) : truthy s = true <-> s <> "".
Proof.
  unfold truthy. rewrite negb_true_iff. destruct (String.eqb_spec s ""); split;
    congruence.
Qed.

(** ** The normalization of the deploy URL *)

Lemma addTrailingSlash_appends (o : BuildTaskOptions) (url : string) :
  deployUrl o = Some url -> url <> "" -> ~ endsWithSeparator url ->
  addTrailingSlash o = set_deployUrl (Some (url ++ "/")) o.
Proof.
  intros Hu Hne Hns. unfold addTrailingSlash. rewrite Hu.
  apply truthy_nonempty in Hne. rewrite Hne.
  destruct (substr_last url =? "/") eqn:E; [|reflexivity].
  apply endsWithSeparator_eqb in E. contradiction.
Qed.

Lemma addTrailingSlash_keeps (o : BuildTaskOptions) (url : string) :
  deployUrl o = Some url -> endsWithSeparator url -> addTrailingSlash o = o.
Proof.
  intros Hu He. unfold addTrailingSlash. rewrite Hu.
  apply endsWithSeparator_eqb in He. rewrite He.
  now rewrite andb_false_r.
Qed.

Lemma addTrailingSlash_empty (o : BuildTaskOptions) :
  deployUrl o = Some "" -> addTrailingSlash o = o.
Proof. intros Hu. unfold addTrailingSlash. now rewrite Hu. Qed.

Lemma addTrailingSlash_absent (o : BuildTaskOptions) :
  deployUrl o = None -> addTrailingSlash o = o.
Proof. intros Hu. unfold addTrailingSlash. now rewrite Hu. Qed.

(** Whatever the deploy URL, the other fields are those of the input. *)
Lemma addTrailingSlash_frame (o : BuildTaskOptions) :
  exists v, addTrailingSlash o = set_deployUrl v o.
Proof.
  unfold addTrailingSlash. destruct (deployUrl o) as [url|] eqn:E.
  - destruct (truthy url && negb (substr_last url =? "/")).
    + now exists (Some (url ++ "/")).
    + exists (Some url). rewrite <- E. now destruct o.
  - exists None. rewrite <- E. now destruct o.
Qed.

Lemma addTrailingSlash_app (o : BuildTaskOptions) : app (addTrailingSlash o) = app o.
Proof. destruct (addTrailingSlash_frame o) as [v ->]. reflexivity. Qed.

Lemma addTrailingSlash_target (o : BuildTaskOptions) :
  target (addTrailingSlash o) = target o.
Proof. destruct (addTrailingSlash_frame o) as [v ->]. reflexivity. Qed.

Lemma addTrailingSlash_aot (o : BuildTaskOptions) : aot (addTrailingSlash o) = aot o.
Proof. destruct (addTrailingSlash_frame o) as [v ->]. reflexivity. Qed.

Lemma addTrailingSlash_skipAppShell (o : BuildTaskOptions) :
  skipAppShell (addTrailingSlash o) = skipAppShell o.
Proof. destruct (addTrailingSlash_frame o) as [v ->]. reflexivity. Qed.

Lemma addTrailingSlash_idempotent (o : BuildTaskOptions) :
  addTrailingSlash (addTrailingSlash o) = addTrailingSlash o.
Proof.
  destruct (deployUrl o) as [url|] eqn:E.
  - destruct (String.eqb_spec url "") as [->|Hne].
    + now rewrite !(addTrailingSlash_empty o E).
    + destruct (substr_last url =? "/") eqn:Es.
      * apply endsWithSeparator_eqb in Es.
        now rewrite !(addTrailingSlash_keeps o E Es).
      * assert (Hn : ~ endsWithSeparator url).
        { intros He. apply endsWithSeparator_eqb in He. congruence. }
        rewrite (addTrailingSlash_appends o E Hne Hn).
        apply addTrailingSlash_keeps with (url := url ++ "/"); [reflexivity|].
        now exists url.
  - now rewrite !(addTrailingSlash_absent o E).
Qed.

(** ** The decision *)

Lemma doAppShell_true (o : BuildTaskOptions) :
  doAppShell o = true <-> shellEligible o.
Proof.
  unfold doAppShell, shellEligible.
  rewrite !andb_true_iff, String.eqb_eq, negb_true_iff.
  destruct (aot o) as [[|]|]; simpl; intuition (congruence || auto).
Qed.

Lemma doAppShell_addTrailingSlash (o : BuildTaskOptions) :
  doAppShell (addTrailingSlash o) = doAppShell o.
Proof.
  unfold doAppShell.
  now rewrite addTrailingSlash_target, addTrailingSlash_aot,
    addTrailingSlash_skipAppShell.
Qed.

Lemma doAppShell_false (o : BuildTaskOptions) :
  doAppShell o = false <->
  (target o <> "production" \/ aot o = Some false \/ skipAppShell o = true).
Proof.
  unfold doAppShell.
  destruct (String.eqb_spec (target o) "production") as [Ht|Ht];
    destruct (aot o) as [[|]|]; destruct (skipAppShell o); simpl;
    intuition (congruence || auto).
Qed.

Lemma serverOptions_frame (o : BuildTaskOptions) (shell : AppShell) :
  app (serverOptions o shell) = Some (shell_app shell) /\
  sameExceptApp (serverOptions o shell) o.
Proof. unfold sameExceptApp. simpl. repeat split. Qed.

(** ** The shape of a run *)

Section RunShape.

Context {C : Collaborators}.

Lemma perform_returned {A} (c : Call) (h : World -> (Failure + A) * World)
    (m : Machine) (a : A) (w' : World) :
  h (world m) = (inr a, w') ->
  perform c h m = (Returned a, mkMachine w' (calls m ++ [c])).
Proof. intros H. unfold perform. now rewrite H. Qed.

Lemma perform_rejected {A} (c : Call) (h : World -> (Failure + A) * World)
    (m : Machine) (f : Failure) (w' : World) :
  h (world m) = (inl f, w') ->
  perform c h m = (Threw (Rejected f), mkMachine w' (calls m ++ [c])).
Proof. intros H. unfold perform. now rewrite H. Qed.

Ltac normalized o o' :=
  unfold run; rewrite ?addTrailingSlash_app, ?doAppShell_addTrailingSlash;
  set (o' := addTrailingSlash o) in *; clearbody o'.

(** No shell, or no [doAppShell]: the run is the client build. *)
Lemma run_client_only (this : BuildCommand) (o : BuildTaskOptions) (w w1 : World)
    (clientApp : AppConfig) :
  getAppFromConfig (app o) w = (inr clientApp, w1) ->
  appShell clientApp = None \/ doAppShell o = false ->
  run this o (start w) =
  afterClientBuild (addTrailingSlash o) w1 [GetAppFromConfig (app o)].
Proof.
  intros Hc Hno. normalized o o'.
  unfold bind at 1. rewrite (perform_returned _ _ (start w) Hc).
  unfold afterClientBuild, resolveServerApp, bind, perform, ret. cbn.
  destruct Hno as [Hn|Hn]; rewrite Hn.
  - cbn. destruct (buildTask_run o' w1) as [[f|b] w2]; reflexivity.
  - destruct (appShell clientApp); cbn;
      destruct (buildTask_run o' w1) as [[f|b] w2]; reflexivity.
Qed.

(** Shell and [doAppShell], and the shell's application is not a server
    one: the run stops at the guard. *)
Lemma run_guard_throws (this : BuildCommand) (o : BuildTaskOptions) (w w1 w2 : World)
    (clientApp serverApp : AppConfig) (shell : AppShell) :
  getAppFromConfig (app o) w = (inr clientApp, w1) ->
  appShell clientApp = Some shell ->
  doAppShell o = true ->
  getAppFromConfig (Some (shell_app shell)) w1 = (inr serverApp, w2) ->
  platform serverApp <> "server" ->
  run this o (start w) =
  (Threw (SilentError platformMessage),
   mkMachine w2 [GetAppFromConfig (app o); GetAppFromConfig (Some (shell_app shell))]).
Proof.
  intros Hc Hs Hd Hv Hp. normalized o o'.
  unfold bind at 1. rewrite (perform_returned _ _ (start w) Hc).
  unfold resolveServerApp, bind, perform, throw. cbn.
  rewrite Hs, Hd. cbn. rewrite Hv.
  apply String.eqb_neq in Hp. now rewrite Hp.
Qed.

(** Shell and [doAppShell], and the shell's application cannot be
    resolved. *)
Lemma run_server_unresolved (this : BuildCommand) (o : BuildTaskOptions) (w w1 w2 : World)
    (clientApp : AppConfig) (shell : AppShell) (f : Failure) :
  getAppFromConfig (app o) w = (inr clientApp, w1) ->
  appShell clientApp = Some shell ->
  doAppShell o = true ->
  getAppFromConfig (Some (shell_app shell)) w1 = (inl f, w2) ->
  run this o (start w) =
  (Threw (Rejected f),
   mkMachine w2 [GetAppFromConfig (app o); GetAppFromConfig (Some (shell_app shell))]).
Proof.
  intros Hc Hs Hd Hv. normalized o o'.
  unfold bind at 1. rewrite (perform_returned _ _ (start w) Hc).
  unfold resolveServerApp, bind, perform. cbn.
  rewrite Hs, Hd. cbn. now rewrite Hv.
Qed.

(** Shell, [doAppShell] and a server application: the run goes through the
    client build and, when it returns, through the server build and, when
    that returns, through the render. *)
Lemma run_pipeline (this : BuildCommand) (o : BuildTaskOptions) (w w1 w2 : World)
    (clientApp serverApp : AppConfig) (shell : AppShell) :
  getAppFromConfig (app o) w = (inr clientApp, w1) ->
  appShell clientApp = Some shell ->
  doAppShell o = true ->
  getAppFromConfig (Some (shell_app shell)) w1 = (inr serverApp, w2) ->
  platform serverApp = "server" ->
  let o' := addTrailingSlash o in
  let resolved := [GetAppFromConfig (app o); GetAppFromConfig (Some (shell_app shell))] in
  run this o (start w) =
  match buildTask_run o' w2 with
  | (inl f, w3) => (Threw (Rejected f), mkMachine w3 (resolved ++ [BuildTaskRun o']))
  | (inr _, w3) =>
      match buildTask_run (serverOptions o' shell) w3 with
      | (inl f, w4) =>
          (Threw (Rejected f),
           mkMachine w4 (resolved ++ [BuildTaskRun o'; BuildTaskRun (serverOptions o' shell)]))
      | (inr _, w4) =>
          afterRender (renderUniversalOptions this clientApp shell serverApp) w4
            (resolved ++ [BuildTaskRun o'; BuildTaskRun (serverOptions o' shell)])
      end
  end.
Proof.
  intros Hc Hs Hd Hv Hp. cbv zeta. normalized o o'.
  unfold bind at 1. rewrite (perform_returned _ _ (start w) Hc).
  unfold afterRender, resolveServerApp, bind, perform, ret. cbn.
  rewrite Hs, Hd. cbn. rewrite Hv, Hp. cbn.
  destruct (buildTask_run o' w2) as [[f|b] w3]; [reflexivity|]. cbn.
  destruct (buildTask_run (serverOptions o' shell) w3) as [[f|b'] w4];
    [reflexivity|]. cbn.
  destruct (renderUniversalTask_run _ w4) as [[f|r] w5]; reflexivity.
Qed.

(** The client application cannot be resolved. *)
Lemma run_client_unresolved (this : BuildCommand) (o : BuildTaskOptions) (w w1 : World)
    (f : Failure) :
  getAppFromConfig (app o) w = (inl f, w1) ->
  run this o (start w) =
  (Threw (Rejected f), mkMachine w1 [GetAppFromConfig (app o)]).
Proof.
  intros Hc. normalized o o'.
  unfold bind at 1. now rewrite (perform_rejected _ _ (start w) Hc).
Qed.

Lemma ret_appendsToLog {A} (a : A) : appendsToLog (ret a).
Proof. intros w before. unfold ret. cbn. now rewrite app_nil_r. Qed.

Lemma throw_appendsToLog {A} (e : Exception) : appendsToLog (throw (A := A) e).
Proof. intros w before. unfold throw. cbn. now rewrite app_nil_r. Qed.

Lemma perform_appendsToLog {A} (c : Call) (h : World -> (Failure + A) * World) :
  appendsToLog (perform c h).
Proof.
  intros w before. unfold perform. cbn. now destruct (h w) as [[f|a] w'].
Qed.

Lemma bind_appendsToLog {A B} (c : M A) (k : A -> M B) :
  appendsToLog c -> (forall a, appendsToLog (k a)) -> appendsToLog (bind c k).
Proof.
  intros Hc Hk w before. unfold bind. rewrite (Hc w before).
  destruct (c (start w)) as [[a|e] [w' l]]; cbn; [|reflexivity].
  rewrite (Hk a w' (before ++ l)%list), (Hk a w' l). cbn.
  now rewrite app_assoc.
Qed.

Lemma resolveServerApp_appendsToLog (clientApp : AppConfig) (doShell : bool) :
  appendsToLog (resolveServerApp clientApp doShell).
Proof.
  unfold resolveServerApp.
  destruct (appShell clientApp) as [shell|]; [|apply ret_appendsToLog].
  destruct doShell; [|apply ret_appendsToLog].
  apply bind_appendsToLog; [apply perform_appendsToLog|].
  intros serverApp. destruct (negb _);
    [apply throw_appendsToLog|apply ret_appendsToLog].
Qed.

Lemma run_appendsToLog (this : BuildCommand) (o : BuildTaskOptions) :
  appendsToLog (run this o).
Proof.
  unfold run.
  apply bind_appendsToLog; [apply perform_appendsToLog|]. intros clientApp.
  apply bind_appendsToLog; [apply resolveServerApp_appendsToLog|]. intros serverApp.
  apply bind_appendsToLog; [apply perform_appendsToLog|]. intros b.
  destruct (appShell clientApp) as [shell|]; [|apply ret_appendsToLog].
  destruct (negb _); [apply ret_appendsToLog|].
  apply bind_appendsToLog; [apply perform_appendsToLog|]. intros _.
  destruct serverApp as [server|]; [|apply throw_appendsToLog].
  apply bind_appendsToLog; [apply perform_appendsToLog|]. intros r.
  apply ret_appendsToLog.
Qed.

(** Every call log of [run] has one of six shapes. *)
Lemma run_calls (this : BuildCommand) (o : BuildTaskOptions) (w : World) :
  let o' := addTrailingSlash o in
  let log := calls (snd (run this o (start w))) in
  let g := GetAppFromConfig (app o) in
  log = [g] \/ log = [g; BuildTaskRun o'] \/
  exists clientApp w1 shell,
    getAppFromConfig (app o) w = (inr clientApp, w1) /\
    appShell clientApp = Some shell /\ doAppShell o = true /\
    let g2 := GetAppFromConfig (Some (shell_app shell)) in
    let b2 := BuildTaskRun (serverOptions o' shell) in
    (log = [g; g2] \/ log = [g; g2; BuildTaskRun o'] \/
     log = [g; g2; BuildTaskRun o'; b2] \/
     exists serverApp w2,
       getAppFromConfig (Some (shell_app shell)) w1 = (inr serverApp, w2) /\
       platform serverApp = "server" /\
       log = [g; g2; BuildTaskRun o'; b2;
              RenderUniversalTaskRun
                (renderUniversalOptions this clientApp shell serverApp)]).
Proof.
  cbv zeta.
  destruct (getAppFromConfig (app o) w) as [[f|clientApp] w1] eqn:Hc.
  { left. now rewrite (run_client_unresolved this o w Hc). }
  assert (Hclient : forall before,
             calls (snd (afterClientBuild (addTrailingSlash o) w1 before)) =
             (before ++ [BuildTaskRun (addTrailingSlash o)])%list).
  { intros before. unfold afterClientBuild.
    now destruct (buildTask_run _ w1) as [[f|b] w2]. }
  destruct (appShell clientApp) as [shell|] eqn:Hs.
  2:{ right; left.
      rewrite (run_client_only this o w Hc (or_introl Hs)). apply Hclient. }
  destruct (doAppShell o) eqn:Hd.
  2:{ right; left.
      rewrite (run_client_only this o w Hc (or_intror Hd)). apply Hclient. }
  right; right. exists clientApp, w1, shell.
  split; [reflexivity|]. split; [exact Hs|]. split; [reflexivity|].
  destruct (getAppFromConfig (Some (shell_app shell)) w1) as [[f|serverApp] w2] eqn:Hv.
  { left. now rewrite (run_server_unresolved this o w Hc Hs Hd Hv). }
  destruct (String.eqb_spec (platform serverApp) "server") as [Hp|Hp].
  2:{ left. now rewrite (run_guard_throws this o w Hc Hs Hd Hv Hp). }
  rewrite (run_pipeline this o w Hc Hs Hd Hv Hp).
  destruct (buildTask_run (addTrailingSlash o) w2) as [[f|b] w3];
    [right; left; reflexivity|].
  destruct (buildTask_run (serverOptions (addTrailingSlash o) shell) w3)
    as [[f|b'] w4]; [right; right; left; reflexivity|].
  right; right; right. exists serverApp, w2.
  split; [reflexivity|]. split; [exact Hp|].
  unfold afterRender.
  now destruct (renderUniversalTask_run _ w4) as [[f|r] w5].
Qed.

(** A run that returns went one of two ways. *)
Lemma run_returns (this : BuildCommand) (o : BuildTaskOptions) (w : World)
    (r : RunResult) :
  fst (run this o (start w)) = Returned r ->
  let o' := addTrailingSlash o in
  let log := calls (snd (run this o (start w))) in
  let g := GetAppFromConfig (app o) in
  exists clientApp w1,
    getAppFromConfig (app o) w = (inr clientApp, w1) /\
    ((exists b, r = FromBuildTask b /\
                (appShell clientApp = None \/ doAppShell o = false) /\
                log = [g; BuildTaskRun o']) \/
     (exists rr shell serverApp,
         r = FromRenderTask rr /\ appShell clientApp = Some shell /\
         doAppShell o = true /\
         log = [g; GetAppFromConfig (Some (shell_app shell)); BuildTaskRun o';
                BuildTaskRun (serverOptions o' shell);
                RenderUniversalTaskRun
                  (renderUniversalOptions this clientApp shell serverApp)])).
Proof.
  cbv zeta.
  destruct (getAppFromConfig (app o) w) as [[f|clientApp] w1] eqn:Hc.
  { rewrite (run_client_unresolved this o w Hc). discriminate. }
  intros Hr. exists clientApp, w1. split; [reflexivity|].
  assert (Hclient : appShell clientApp = None \/ doAppShell o = false ->
            exists b, r = FromBuildTask b /\
              (appShell clientApp = None \/ doAppShell o = false) /\
              calls (snd (run this o (start w))) =
              [GetAppFromConfig (app o); BuildTaskRun (addTrailingSlash o)]).
  { intros Hno. rewrite (run_client_only this o w Hc Hno) in *.
    unfold afterClientBuild in *.
    destruct (buildTask_run _ w1) as [[f|b] w2]; [discriminate|].
    exists b. cbn in Hr. injection Hr as <-. now repeat split. }
  destruct (appShell clientApp) as [shell|] eqn:Hs; [|left; auto].
  destruct (doAppShell o) eqn:Hd; [|left; auto].
  clear Hclient. right.
  destruct (getAppFromConfig (Some (shell_app shell)) w1) as [[f|serverApp] w2] eqn:Hv.
  { rewrite (run_server_unresolved this o w Hc Hs Hd Hv) in Hr. discriminate. }
  destruct (String.eqb_spec (platform serverApp) "server") as [Hp|Hp].
  2:{ rewrite (run_guard_throws this o w Hc Hs Hd Hv Hp) in Hr. discriminate. }
  rewrite (run_pipeline this o w Hc Hs Hd Hv Hp) in *.
  destruct (buildTask_run (addTrailingSlash o) w2) as [[f|b] w3];
    [discriminate|].
  destruct (buildTask_run (serverOptions (addTrailingSlash o) shell) w3)
    as [[f|b'] w4]; [discriminate|].
  unfold afterRender in *.
  destruct (renderUniversalTask_run _ w4) as [[f|rr] w5]; [discriminate|].
  cbn in Hr. injection Hr as <-.
  exists rr, shell, serverApp. now repeat split.
Qed.

(** Every build of a run is given the normalized deploy URL. *)
Lemma run_builds_deployUrl (this : BuildCommand) (o : BuildTaskOptions) (w : World)
    (bo : BuildTaskOptions) :
  In bo (buildCalls (calls (snd (run this o (start w))))) ->
  deployUrl bo = deployUrl (addTrailingSlash o).
Proof.
  destruct (run_calls this o w) as [E|[E|(clientApp & w1 & shell & _ & _ & _ & E)]].
  - rewrite E. intros [].
  - rewrite E. intros [<-|[]]. reflexivity.
  - destruct E as [E|[E|[E|(serverApp & w2 & _ & _ & E)]]]; rewrite E; cbn;
      intuition (subst; reflexivity).
Qed.

End RunShape.

(** ** The app-shell decision and the platform guard *)

Section Decision.

Context {C : Collaborators}.




(** C2.  When the client application declares a shell, the three option
    conditions hold, and the application the shell names resolves to one whose
    platform is not "server", the run throws the platform error, and its
    log holds the two resolutions only: the build task is not run for either
    application, nor the render task. *)
Theorem platform_guard_before_builds (this : BuildCommand) (o : BuildTaskOptions)
    (w w1 w2 : World) (clientApp serverApp : AppConfig) (shell : AppShell) :
  getAppFromConfig (app o) w = (inr clientApp, w1) ->
  appShell clientApp = Some shell ->
  shellEligible o ->
  getAppFromConfig (Some (shell_app shell)) w1 = (inr serverApp, w2) ->
  platform serverApp <> "server" ->
  let result := run this o (start w) in
  fst result = Threw (SilentError platformMessage) /\
  calls (snd result) =
    [GetAppFromConfig (app o); GetAppFromConfig (Some (shell_app shell))] /\
  buildCalls (calls (snd result)) = [] /\
  renderCalls (calls (snd result)) = [].
Proof.
  intros Hc Hs He Hv Hp. apply doAppShell_true in He. cbv zeta.
  rewrite (run_guard_throws this o w Hc Hs He Hv Hp). now repeat split.
Qed.

(** C6.  When the client application declares no shell, whatever the
    target, AOT and skip-app-shell options are, the build task is run exactly
    once (on the normalized options), the render task is not run, and the run
    ends as that build ends: with its result if it returns, with its failure
    if it fails, in the world it leaves. *)
Theorem no_shell_single_build (this : BuildCommand) (o : BuildTaskOptions)
    (w w1 : World) (clientApp : AppConfig) :
  getAppFromConfig (app o) w = (inr clientApp, w1) ->
  appShell clientApp = None ->
  let result := run this o (start w) in
  let built := buildTask_run (addTrailingSlash o) w1 in
  buildCalls (calls (snd result)) = [addTrailingSlash o] /\
  renderCalls (calls (snd result)) = [] /\
  fst result =
    match fst built with
    | inr b => Returned (FromBuildTask b)
    | inl f => Threw (Rejected f)
    end /\
  world (snd result) = snd built.
Proof.
  intros Hc Hs. cbv zeta.
  rewrite (run_client_only this o w Hc (or_introl Hs)).
  unfold afterClientBuild.
  now destruct (buildTask_run (addTrailingSlash o) w1) as [[f|b] w2].
Qed.

(** C10.  When one of the three option conditions fails (target is not
    production, or AOT is false, or skip-app-shell is true), then whatever the
    client application declares, [getAppFromConfig] is called once, for the
    client application: the shell's application is not resolved and the
    platform error is not thrown.  The run ends as the client build ends. *)
Theorem ineligible_skips_server (this : BuildCommand) (o : BuildTaskOptions)
    (w w1 : World) (clientApp : AppConfig) :
  getAppFromConfig (app o) w = (inr clientApp, w1) ->
  target o <> "production" \/ aot o = Some false \/ skipAppShell o = true ->
  let result := run this o (start w) in
  let built := buildTask_run (addTrailingSlash o) w1 in
  calls (snd result) = [GetAppFromConfig (app o); BuildTaskRun (addTrailingSlash o)] /\
  resolveCalls (calls (snd result)) = [app o] /\
  (forall message, fst result <> Threw (SilentError message)) /\
  fst result =
    match fst built with
    | inr b => Returned (FromBuildTask b)
    | inl f => Threw (Rejected f)
    end /\
  world (snd result) = snd built.
Proof.
  intros Hc Hno. apply doAppShell_false in Hno. cbv zeta.
  rewrite (run_client_only this o w Hc (or_intror Hno)).
  unfold afterClientBuild.
  destruct (buildTask_run (addTrailingSlash o) w1) as [[f|b] w2];
    cbn; repeat split; discriminate.
Qed.

End Decision.

(** ** The deploy URL *)

Section DeployUrl.

Context {C : Collaborators}.

(** C3, amended.  For options whose deploy URL is set and not empty: if it
    does not end with the separator, the normalized deploy URL is the input
    followed by one separator, and no other field changes; if it ends with
    the separator, normalization returns the options unchanged.  Normalizing
    twice is normalizing once, and every run of the build task in a run of
    the command is given the deploy URL normalized once. *)
Theorem deployUrl_normalization (this : BuildCommand) (o : BuildTaskOptions)
    (w : World) (url : string) :
  deployUrl o = Some url ->
  url <> "" ->
  (~ endsWithSeparator url ->
   deployUrl (addTrailingSlash o) = Some (url ++ "/") /\
   addTrailingSlash o = set_deployUrl (Some (url ++ "/")) o) /\
  (endsWithSeparator url -> addTrailingSlash o = o) /\
  addTrailingSlash (addTrailingSlash o) = addTrailingSlash o /\
  (forall bo, In bo (buildCalls (calls (snd (run this o (start w))))) ->
              deployUrl bo = deployUrl (addTrailingSlash o)).
Proof.
  intros Hu Hne. split; [|split; [|split]].
  - intros Hns. rewrite (addTrailingSlash_appends o Hu Hne Hns). now split.
  - intros He. exact (addTrailingSlash_keeps o Hu He).
  - apply addTrailingSlash_idempotent.
  - apply run_builds_deployUrl.
Qed.

(** C9.  An empty deploy URL is falsy, as an absent one is: normalization
    returns the options unchanged in both cases, and every run of the build
    task is given the empty deploy URL, which does not end with the
    separator. *)
Theorem empty_deployUrl_unchanged (this : BuildCommand) (o : BuildTaskOptions)
    (w : World) :
  deployUrl o = Some "" ->
  truthy "" = false /\
  ~ endsWithSeparator "" /\
  addTrailingSlash o = o /\
  (forall o2, deployUrl o2 = None -> addTrailingSlash o2 = o2) /\
  (forall bo, In bo (buildCalls (calls (snd (run this o (start w))))) ->
              deployUrl bo = Some "").
Proof.
  intros Hu. split; [reflexivity|]. split; [apply empty_not_endsWithSeparator|].
  split; [now apply addTrailingSlash_empty|].
  split; [apply addTrailingSlash_absent|].
  intros bo Hin. rewrite (run_builds_deployUrl this o w bo Hin).
  now rewrite (addTrailingSlash_empty o Hu).
Qed.

End DeployUrl.

(** ** The pipeline *)

Section Pipeline.

Context {C : Collaborators}.

(** C5.  When the client application declares a shell, the three option
    conditions hold, the shell's application is a server one and the client
    build returns, the build task is run a second time, on options whose
    [app] is the shell's application and whose other fields, the normalized
    deploy URL among them, are those given to the client build. *)
Theorem server_build_options (this : BuildCommand) (o : BuildTaskOptions)
    (w w1 w2 w3 : World) (clientApp serverApp : AppConfig) (shell : AppShell)
    (b : BuildResult) :
  getAppFromConfig (app o) w = (inr clientApp, w1) ->
  appShell clientApp = Some shell ->
  shellEligible o ->
  getAppFromConfig (Some (shell_app shell)) w1 = (inr serverApp, w2) ->
  platform serverApp = "server" ->
  buildTask_run (addTrailingSlash o) w2 = (inr b, w3) ->
  exists so,
    buildCalls (calls (snd (run this o (start w)))) = [addTrailingSlash o; so] /\
    app so = Some (shell_app shell) /\
    sameExceptApp so (addTrailingSlash o) /\
    deployUrl so = deployUrl (addTrailingSlash o).
Proof.
  intros Hc Hs He Hv Hp Hb. apply doAppShell_true in He.
  exists (serverOptions (addTrailingSlash o) shell).
  destruct (serverOptions_frame (addTrailingSlash o) shell) as [Ha Hf].
  split; [|now repeat split].
  rewrite (run_pipeline this o w Hc Hs He Hv Hp). cbv zeta. rewrite Hb.
  destruct (buildTask_run (serverOptions (addTrailingSlash o) shell) w3)
    as [[f|b'] w4]; [reflexivity|].
  unfold afterRender.
  now destruct (renderUniversalTask_run _ w4) as [[f|r] w5].
Qed.

(** C7.  When the pipeline is taken and both builds return, the call log
    is: the two resolutions, the client build, the server build, the render,
    in this order.  The server build starts in the world the client build
    left, the render in the world the server build left, and the run ends as
    the render ends: with its result, or with its failure. *)
Theorem pipeline_sequence (this : BuildCommand) (o : BuildTaskOptions)
    (w w1 w2 w3 w4 : World) (clientApp serverApp : AppConfig) (shell : AppShell)
    (b b' : BuildResult) :
  getAppFromConfig (app o) w = (inr clientApp, w1) ->
  appShell clientApp = Some shell ->
  shellEligible o ->
  getAppFromConfig (Some (shell_app shell)) w1 = (inr serverApp, w2) ->
  platform serverApp = "server" ->
  buildTask_run (addTrailingSlash o) w2 = (inr b, w3) ->
  buildTask_run (serverOptions (addTrailingSlash o) shell) w3 = (inr b', w4) ->
  let result := run this o (start w) in
  let ro := renderUniversalOptions this clientApp shell serverApp in
  let rendered := renderUniversalTask_run ro w4 in
  calls (snd result) =
    [GetAppFromConfig (app o); GetAppFromConfig (Some (shell_app shell));
     BuildTaskRun (addTrailingSlash o);
     BuildTaskRun (serverOptions (addTrailingSlash o) shell);
     RenderUniversalTaskRun ro] /\
  fst result =
    match fst rendered with
    | inr r => Returned (FromRenderTask r)
    | inl f => Threw (Rejected f)
    end /\
  world (snd result) = snd rendered.
Proof.
  intros Hc Hs He Hv Hp Hb Hb'. apply doAppShell_true in He. cbv zeta.
  rewrite (run_pipeline this o w Hc Hs He Hv Hp). cbv zeta. rewrite Hb, Hb'.
  unfold afterRender.
  now destruct (renderUniversalTask_run _ w4) as [[f|r] w5].
Qed.

(** C4.  When the pipeline is taken and both builds and the render return,
    the render task is run once, with: as input index path the client
    application's index under its output directory under the project root, as
    route the shell's route, as server output directory the server
    application's output directory under the project root, and as output
    index path the input index path.  The run returns the render's result,
    whatever the two builds returned. *)
Theorem render_invocation (this : BuildCommand) (o : BuildTaskOptions)
    (w w1 w2 w3 w4 w5 : World) (clientApp serverApp : AppConfig) (shell : AppShell)
    (b b' : BuildResult) (r : RenderResult) :
  getAppFromConfig (app o) w = (inr clientApp, w1) ->
  appShell clientApp = Some shell ->
  shellEligible o ->
  getAppFromConfig (Some (shell_app shell)) w1 = (inr serverApp, w2) ->
  platform serverApp = "server" ->
  buildTask_run (addTrailingSlash o) w2 = (inr b, w3) ->
  buildTask_run (serverOptions (addTrailingSlash o) shell) w3 = (inr b', w4) ->
  renderUniversalTask_run (renderUniversalOptions this clientApp shell serverApp) w4
    = (inr r, w5) ->
  let result := run this o (start w) in
  let indexPath := join [root (project this); outDir clientApp; index clientApp] in
  renderCalls (calls (snd result)) =
    [{| inputIndexPath := indexPath;
        renderRoute := route shell;
        serverOutDir := join [root (project this); outDir serverApp];
        outputIndexPath := indexPath |}] /\
  fst result = Returned (FromRenderTask r).
Proof.
  intros Hc Hs He Hv Hp Hb Hb' Hr. apply doAppShell_true in He. cbv zeta.
  rewrite (run_pipeline this o w Hc Hs He Hv Hp). cbv zeta. rewrite Hb, Hb'.
  unfold afterRender. rewrite Hr. now split.
Qed.

End Pipeline.

(** ** Validation *)

Section Validation.

Context {C : Collaborators}.

(** C8.  [validate] calls the framework version check and then the
    compiler version check, each on the project root, and nothing else: no
    application is resolved, no build or render task is run.  If the first
    check fails, [validate] throws its failure and the second check is not
    made; if the second fails, [validate] throws its failure; if both pass,
    [validate] returns [true] in the world the checks left.  The options do
    not matter.  In a command run, a failure of [validate] is the end of the
    run, and on success every call of [run] comes after the two checks. *)
Theorem validate_checks (this : BuildCommand) (o : BuildTaskOptions) (w : World) :
  let projectRoot := root (project this) in
  let result := validate this o (start w) in
  let first := AssertAngularVersion projectRoot in
  let second := AssertTypescriptVersion projectRoot in
  (forall f w1,
     assertAngularVersionIs2_3_1OrHigher projectRoot w = (inl f, w1) ->
     result = (Threw (Rejected f), mkMachine w1 [first])) /\
  (forall w1 f w2,
     assertAngularVersionIs2_3_1OrHigher projectRoot w = (inr tt, w1) ->
     assertTypescriptVersion projectRoot w1 = (inl f, w2) ->
     result = (Threw (Rejected f), mkMachine w2 [first; second])) /\
  (forall w1 w2,
     assertAngularVersionIs2_3_1OrHigher projectRoot w = (inr tt, w1) ->
     assertTypescriptVersion projectRoot w1 = (inr tt, w2) ->
     result = (Returned true, mkMachine w2 [first; second])) /\
  (calls (snd result) = [first] \/ calls (snd result) = [first; second]) /\
  (forall o2, validate this o2 (start w) = result) /\
  (forall e m, result = (Threw e, m) ->
     validateAndRun this o (start w) = (Threw e, m)) /\
  (forall v m, result = (Returned v, m) ->
     v = true /\ calls m = [first; second] /\
     let ran := run this o (start (world m)) in
     validateAndRun this o (start w) =
     (fst ran, mkMachine (world (snd ran)) ([first; second] ++ calls (snd ran)))).
Proof.
  cbv zeta. unfold validateAndRun.
  split; [|split; [|split; [|split; [|split; [|split]]]]].
  - intros f w1 H. unfold validate, bind, perform. cbn. now rewrite H.
  - intros w1 f w2 H1 H2. unfold validate, bind, perform. cbn.
    rewrite H1. cbn. now rewrite H2.
  - intros w1 w2 H1 H2. unfold validate, bind, perform, ret. cbn.
    rewrite H1. cbn. now rewrite H2.
  - unfold validate, bind, perform, ret. cbn.
    destruct (assertAngularVersionIs2_3_1OrHigher _ w) as [[f|[]] w1]; cbn;
      [now left|].
    destruct (assertTypescriptVersion _ w1) as [[f|[]] w2]; now right.
  - reflexivity.
  - intros e m H. unfold bind at 1. now rewrite H.
  - intros v m H.
    assert (Hv : v = true /\
                 calls m = [AssertAngularVersion (root (project this));
                            AssertTypescriptVersion (root (project this))]).
    { revert H. unfold validate, bind, perform, ret. cbn.
      destruct (assertAngularVersionIs2_3_1OrHigher _ w) as [[f|[]] w1]; cbn;
        [discriminate|].
      destruct (assertTypescriptVersion _ w1) as [[f|[]] w2]; cbn;
        [discriminate|].
      intros H. injection H as <- <-. now split. }
    destruct Hv as [-> Hm]. split; [reflexivity|]. split; [exact Hm|].
    unfold bind at 1. rewrite H. destruct m as [wm lm]. cbn in Hm. subst lm.
    apply run_appendsToLog.
Qed.

End Validation.

(** ** Evaluating the command on the project *)

Section OnProject.

#[local] Existing Instance Scenario.project.

Example run_production_default_app :
  run Scenario.command (Scenario.prodOptions None (Some "https://cdn.example.com/assets"))
      (start []) =
  (Returned (FromRenderTask "shell at /work/dist/index.html"),
   mkMachine
     ["bundle of default"; "bundle of ssr"; "/work/dist/index.html"]
     [GetAppFromConfig None; GetAppFromConfig (Some "ssr");
      BuildTaskRun (Scenario.prodOptions None (Some "https://cdn.example.com/assets/"));
      BuildTaskRun (Scenario.prodOptions (Some "ssr") (Some "https://cdn.example.com/assets/"));
      RenderUniversalTaskRun
        (mkRenderOptions "/work/dist/index.html" "/" "/work/dist-server"
                         "/work/dist/index.html")]).
Proof. reflexivity. Qed.

Example run_production_broken_shell :
  run Scenario.command (Scenario.prodOptions (Some "broken") None)
      (start []) =
  (Threw (SilentError platformMessage),
   mkMachine []
     [GetAppFromConfig (Some "broken"); GetAppFromConfig (Some "plain")]).
Proof. reflexivity. Qed.

Example run_development_default_app :
  run Scenario.command Scenario.devOptions (start []) =
  (Returned (FromBuildTask "bundle of default"),
   mkMachine ["bundle of default"]
     [GetAppFromConfig None; BuildTaskRun Scenario.devOptions]).
Proof. reflexivity. Qed.

(** *** The properties on the project *)



Lemma platform_guard_before_builds_witness :
  platform Scenario.plainApp <> "server" /\
  fst (run Scenario.command (Scenario.prodOptions (Some "broken") None) (start []))
    = Threw (SilentError platformMessage) /\
  buildCalls
    (calls (snd (run Scenario.command (Scenario.prodOptions (Some "broken") None)
                     (start [])))) = [].
Proof.
  assert (Hp : platform Scenario.plainApp <> "server") by discriminate.
  split; [exact Hp|].
  destruct (@platform_guard_before_builds Scenario.project Scenario.command
              (Scenario.prodOptions (Some "broken") None) [] [] []
              Scenario.brokenApp Scenario.plainApp (mkAppShell "plain" "/home")
              eq_refl eq_refl (conj eq_refl (conj (or_introl eq_refl) eq_refl))
              eq_refl Hp)
    as (H1 & _ & H3 & _).
  split; assumption.
Defined.

(** C3 as stated fails on the empty deploy URL: it does not end with the
    separator, and normalization does not append one. *)
Lemma deployUrl_empty_counterexample :
  deployUrl (Scenario.prodOptions None (Some "")) = Some "" /\
  ~ endsWithSeparator "" /\
  deployUrl (addTrailingSlash (Scenario.prodOptions None (Some ""))) <> Some ("" ++ "/").
Proof.
  split; [reflexivity|]. split; [apply empty_not_endsWithSeparator|]. discriminate.
Qed.

Lemma deployUrl_normalization_witness :
  deployUrl (Scenario.prodOptions None (Some "https://cdn.example.com/assets"))
    = Some "https://cdn.example.com/assets" /\
  "https://cdn.example.com/assets" <> "" /\
  ~ endsWithSeparator "https://cdn.example.com/assets" /\
  deployUrl
    (addTrailingSlash (Scenario.prodOptions None (Some "https://cdn.example.com/assets")))
    = Some "https://cdn.example.com/assets/".
Proof.
  assert (Hne : "https://cdn.example.com/assets" <> "") by discriminate.
  assert (Hns : ~ endsWithSeparator "https://cdn.example.com/assets").
  { intros He. apply endsWithSeparator_substr_last in He. discriminate. }
  split; [reflexivity|]. split; [exact Hne|]. split; [exact Hns|].
  destruct (@deployUrl_normalization Scenario.project Scenario.command
              (Scenario.prodOptions None (Some "https://cdn.example.com/assets"))
              [] "https://cdn.example.com/assets" eq_refl Hne)
    as (Happends & _).
  exact (proj1 (Happends Hns)).
Defined.

Lemma empty_deployUrl_unchanged_witness :
  deployUrl (Scenario.prodOptions None (Some "")) = Some "" /\
  addTrailingSlash (Scenario.prodOptions None (Some "")) =
    Scenario.prodOptions None (Some "").
Proof.
  split; [reflexivity|].
  destruct (@empty_deployUrl_unchanged Scenario.project Scenario.command
              (Scenario.prodOptions None (Some "")) [] eq_refl)
    as (_ & _ & H & _).
  exact H.
Defined.

Lemma render_invocation_witness :
  renderCalls
    (calls (snd (run Scenario.command (Scenario.prodOptions None None) (start [])))) =
    [mkRenderOptions "/work/dist/index.html" "/" "/work/dist-server"
                     "/work/dist/index.html"] /\
  fst (run Scenario.command (Scenario.prodOptions None None) (start [])) =
    Returned (FromRenderTask "shell at /work/dist/index.html").
Proof.
  exact (@render_invocation Scenario.project Scenario.command
           (Scenario.prodOptions None None) [] [] []
           ["bundle of default"] ["bundle of default"; "bundle of ssr"]
           ["bundle of default"; "bundle of ssr"; "/work/dist/index.html"]
           Scenario.clientApp Scenario.serverApp (mkAppShell "ssr" "/")
           "bundle of default" "bundle of ssr" "shell at /work/dist/index.html"
           eq_refl eq_refl (conj eq_refl (conj (or_introl eq_refl) eq_refl))
           eq_refl eq_refl eq_refl eq_refl eq_refl).
Defined.

Lemma server_build_options_witness :
  exists so,
    buildCalls
      (calls (snd (run Scenario.command
                       (Scenario.prodOptions None (Some "https://cdn.example.com/assets"))
                       (start [])))) =
      [Scenario.prodOptions None (Some "https://cdn.example.com/assets/"); so] /\
    app so = Some "ssr" /\
    deployUrl so = Some "https://cdn.example.com/assets/".
Proof.
  destruct (@server_build_options Scenario.project Scenario.command
              (Scenario.prodOptions None (Some "https://cdn.example.com/assets"))
              [] [] [] ["bundle of default"]
              Scenario.clientApp Scenario.serverApp (mkAppShell "ssr" "/")
              "bundle of default"
              eq_refl eq_refl (conj eq_refl (conj (or_introl eq_refl) eq_refl))
              eq_refl eq_refl eq_refl)
    as (so & Hcalls & Happ & _ & Hurl).
  exists so. repeat split; assumption.
Defined.

Lemma no_shell_single_build_witness :
  appShell Scenario.plainApp = None /\
  buildCalls
    (calls (snd (run Scenario.command (Scenario.prodOptions (Some "plain") None)
                     (start [])))) =
    [Scenario.prodOptions (Some "plain") None] /\
  fst (run Scenario.command (Scenario.prodOptions (Some "plain") None) (start [])) =
    Returned (FromBuildTask "bundle of plain").
Proof.
  split; [reflexivity|].
  destruct (@no_shell_single_build Scenario.project Scenario.command
              (Scenario.prodOptions (Some "plain") None) [] [] Scenario.plainApp
              eq_refl eq_refl)
    as (H1 & _ & H3 & _).
  split; assumption.
Defined.

Lemma pipeline_sequence_witness :
  calls (snd (run Scenario.command (Scenario.prodOptions None None) (start []))) =
    [GetAppFromConfig None; GetAppFromConfig (Some "ssr");
     BuildTaskRun (Scenario.prodOptions None None);
     BuildTaskRun (Scenario.prodOptions (Some "ssr") None);
     RenderUniversalTaskRun
       (mkRenderOptions "/work/dist/index.html" "/" "/work/dist-server"
                        "/work/dist/index.html")] /\
  world (snd (run Scenario.command (Scenario.prodOptions None None) (start []))) =
    ["bundle of default"; "bundle of ssr"; "/work/dist/index.html"].
Proof.
  destruct (@pipeline_sequence Scenario.project Scenario.command
              (Scenario.prodOptions None None) [] [] []
              ["bundle of default"] ["bundle of default"; "bundle of ssr"]
              Scenario.clientApp Scenario.serverApp (mkAppShell "ssr" "/")
              "bundle of default" "bundle of ssr"
              eq_refl eq_refl (conj eq_refl (conj (or_introl eq_refl) eq_refl))
              eq_refl eq_refl eq_refl eq_refl)
    as (H1 & _ & H3).
  split; assumption.
Defined.

Lemma validate_checks_witness :
  validate Scenario.command Scenario.devOptions (start []) =
    (Returned true,
     mkMachine [] [AssertAngularVersion "/work"; AssertTypescriptVersion "/work"]) /\
  validateAndRun Scenario.legacyCommand Scenario.devOptions (start []) =
    (Threw (Rejected "version too low in /old-ng"),
     mkMachine [] [AssertAngularVersion "/old-ng"]).
Proof.
  split.
  - destruct (@validate_checks Scenario.project Scenario.command Scenario.devOptions [])
      as (_ & _ & Hok & _).
    exact (Hok [] [] eq_refl eq_refl).
  - destruct (@validate_checks Scenario.project Scenario.legacyCommand
                Scenario.devOptions [])
      as (Hfirst & _ & _ & _ & _ & Hstop & _).
    apply Hstop. exact (Hfirst _ [] eq_refl).
Defined.

Lemma ineligible_skips_server_witness :
  target (Scenario.options "development" (Some "broken") None) <> "production" /\
  calls (snd (run Scenario.command (Scenario.options "development" (Some "broken") None)
                  (start []))) =
    [GetAppFromConfig (Some "broken");
     BuildTaskRun (Scenario.options "development" (Some "broken") None)] /\
  fst (run Scenario.command (Scenario.options "development" (Some "broken") None)
           (start [])) =
    Returned (FromBuildTask "bundle of broken").
Proof.
  assert (Ht : target (Scenario.options "development" (Some "broken") None)
               <> "production") by discriminate.
  split; [exact Ht|].
  destruct (@ineligible_skips_server Scenario.project Scenario.command
              (Scenario.options "development" (Some "broken") None) [] []
              Scenario.brokenApp eq_refl (or_introl Ht))
    as (H1 & _ & _ & H4 & _).
  split; assumption.
Defined.

End OnProject.

(** ** Failures and what a run never does *)

Section RunOutcomes.

Context {C : Collaborators}.

(** A run that throws either passes on a collaborator's failure or stops at
    the platform guard. *)
Lemma run_throws (this : BuildCommand) (o : BuildTaskOptions) (w : World)
    (e : Exception) :
  fst (run this o (start w)) = Threw e ->
  (exists f, e = Rejected f) \/
  (e = SilentError platformMessage /\
   exists clientApp w1 shell serverApp w2,
     getAppFromConfig (app o) w = (inr clientApp, w1) /\
     appShell clientApp = Some shell /\ doAppShell o = true /\
     getAppFromConfig (Some (shell_app shell)) w1 = (inr serverApp, w2) /\
     platform serverApp <> "server" /\
     calls (snd (run this o (start w))) =
       [GetAppFromConfig (app o); GetAppFromConfig (Some (shell_app shell))]).
Proof.
  destruct (getAppFromConfig (app o) w) as [[f|clientApp] w1] eqn:Hc.
  { rewrite (run_client_unresolved this o w Hc). cbn. intros [= <-]. eauto. }
  assert (Hclient : appShell clientApp = None \/ doAppShell o = false ->
            fst (run this o (start w)) = Threw e -> exists f, e = Rejected f).
  { intros Hno. rewrite (run_client_only this o w Hc Hno).
    unfold afterClientBuild.
    destruct (buildTask_run _ w1) as [[f|b] w2]; cbn; [|discriminate].
    intros [= <-]. eauto. }
  destruct (appShell clientApp) as [shell|] eqn:Hs; [|left; auto].
  destruct (doAppShell o) eqn:Hd; [|left; auto].
  clear Hclient.
  destruct (getAppFromConfig (Some (shell_app shell)) w1) as [[f|serverApp] w2] eqn:Hv.
  { rewrite (run_server_unresolved this o w Hc Hs Hd Hv). cbn. intros [= <-]. eauto. }
  destruct (String.eqb_spec (platform serverApp) "server") as [Hp|Hp].
  2:{ rewrite (run_guard_throws this o w Hc Hs Hd Hv Hp). cbn. intros [= <-].
      right. split; [reflexivity|].
      exists clientApp, w1, shell, serverApp, w2. now repeat split. }
  rewrite (run_pipeline this o w Hc Hs Hd Hv Hp).
  destruct (buildTask_run (addTrailingSlash o) w2) as [[f|b] w3].
  { cbn. intros [= <-]. eauto. }
  destruct (buildTask_run (serverOptions (addTrailingSlash o) shell) w3)
    as [[f|b'] w4].
  { cbn. intros [= <-]. eauto. }
  unfold afterRender.
  destruct (renderUniversalTask_run _ w4) as [[f|r] w5]; cbn; [|discriminate].
  intros [= <-]. eauto.
Qed.

(** X1.  When an application cannot be resolved, the client one or, with a
    shell and the option conditions, the one the shell names, the run throws
    the resolver's failure unchanged, in the world the resolver left, and
    neither the build task nor the render task is run. *)
Theorem resolution_failure_stops_run (this : BuildCommand) (o : BuildTaskOptions)
    (w : World) :
  (forall f w1,
     getAppFromConfig (app o) w = (inl f, w1) ->
     let result := run this o (start w) in
     fst result = Threw (Rejected f) /\ world (snd result) = w1 /\
     resolveCalls (calls (snd result)) = [app o] /\
     buildCalls (calls (snd result)) = [] /\ renderCalls (calls (snd result)) = []) /\
  (forall clientApp w1 shell f w2,
     getAppFromConfig (app o) w = (inr clientApp, w1) ->
     appShell clientApp = Some shell ->
     shellEligible o ->
     getAppFromConfig (Some (shell_app shell)) w1 = (inl f, w2) ->
     let result := run this o (start w) in
     fst result = Threw (Rejected f) /\ world (snd result) = w2 /\
     resolveCalls (calls (snd result)) = [app o; Some (shell_app shell)] /\
     buildCalls (calls (snd result)) = [] /\ renderCalls (calls (snd result)) = []).
Proof.
  split.
  - intros f w1 Hc. cbv zeta. rewrite (run_client_unresolved this o w Hc).
    now repeat split.
  - intros clientApp w1 shell f w2 Hc Hs He Hv. apply doAppShell_true in He.
    cbv zeta. rewrite (run_server_unresolved this o w Hc Hs He Hv).
    now repeat split.
Qed.

(** X2.  When the pipeline is taken and the client build fails, the run
    throws the build's failure in the world the build left: the server
    application, though resolved and checked, is not built, and nothing is
    rendered. *)
Theorem client_build_failure_stops_pipeline (this : BuildCommand)
    (o : BuildTaskOptions) (w w1 w2 w3 : World) (clientApp serverApp : AppConfig)
    (shell : AppShell) (f : Failure) :
  getAppFromConfig (app o) w = (inr clientApp, w1) ->
  appShell clientApp = Some shell ->
  shellEligible o ->
  getAppFromConfig (Some (shell_app shell)) w1 = (inr serverApp, w2) ->
  platform serverApp = "server" ->
  buildTask_run (addTrailingSlash o) w2 = (inl f, w3) ->
  let result := run this o (start w) in
  fst result = Threw (Rejected f) /\ world (snd result) = w3 /\
  buildCalls (calls (snd result)) = [addTrailingSlash o] /\
  renderCalls (calls (snd result)) = [].
Proof.
  intros Hc Hs He Hv Hp Hb. apply doAppShell_true in He. cbv zeta.
  rewrite (run_pipeline this o w Hc Hs He Hv Hp). cbv zeta. rewrite Hb.
  now repeat split.
Qed.

(** X3.  When the client build returns and the server build fails, the run
    throws the server build's failure in the world that build left; the
    client build's result is lost and the render task is not run. *)
Theorem server_build_failure_skips_render (this : BuildCommand)
    (o : BuildTaskOptions) (w w1 w2 w3 w4 : World) (clientApp serverApp : AppConfig)
    (shell : AppShell) (b : BuildResult) (f : Failure) :
  getAppFromConfig (app o) w = (inr clientApp, w1) ->
  appShell clientApp = Some shell ->
  shellEligible o ->
  getAppFromConfig (Some (shell_app shell)) w1 = (inr serverApp, w2) ->
  platform serverApp = "server" ->
  buildTask_run (addTrailingSlash o) w2 = (inr b, w3) ->
  buildTask_run (serverOptions (addTrailingSlash o) shell) w3 = (inl f, w4) ->
  let result := run this o (start w) in
  fst result = Threw (Rejected f) /\ world (snd result) = w4 /\
  buildCalls (calls (snd result)) =
    [addTrailingSlash o; serverOptions (addTrailingSlash o) shell] /\
  renderCalls (calls (snd result)) = [].
Proof.
  intros Hc Hs He Hv Hp Hb Hb'. apply doAppShell_true in He. cbv zeta.
  rewrite (run_pipeline this o w Hc Hs He Hv Hp). cbv zeta. rewrite Hb, Hb'.
  now repeat split.
Qed.

(** X4.  Where [serverApp.outDir] is read, [serverApp] is not [null]: the
    [TypeError] of [Exception] stands for that read on [null] and for no other
    error, and no run ends with it, whatever the collaborators return or fail
    with, because the test that assigns [serverApp] and the test of the early
    return are the same.  The resolver is taken to return an application
    whenever it returns. *)
Theorem run_never_reads_null_serverApp (this : BuildCommand) (o : BuildTaskOptions)
    (w : World) :
  fst (run this o (start w)) <> Threw TypeError.
Proof.
  intros H. destruct (run_throws this o w H) as [[f Hf]|[Hs _]]; discriminate.
Qed.

(** X5.  The error [run] builds itself, at the platform guard, is thrown
    only in the case of the guard: the client application declares a shell,
    the option conditions hold, the shell's application resolves and its
    platform is not "server"; no build or render has run by then.  (An error
    of the same class thrown by a collaborator is that collaborator's failure,
    passed on as such.) *)
Theorem guard_error_only_from_guard (this : BuildCommand) (o : BuildTaskOptions)
    (w : World) :
  fst (run this o (start w)) = Threw (SilentError platformMessage) ->
  shellEligible o /\
  (exists clientApp w1 shell serverApp w2,
     getAppFromConfig (app o) w = (inr clientApp, w1) /\
     appShell clientApp = Some shell /\
     getAppFromConfig (Some (shell_app shell)) w1 = (inr serverApp, w2) /\
     platform serverApp <> "server") /\
  buildCalls (calls (snd (run this o (start w)))) = [] /\
  renderCalls (calls (snd (run this o (start w)))) = [].
Proof.
  intros H.
  destruct (run_throws this o w H)
    as [[f Hf]|[_ (clientApp & w1 & shell & serverApp & w2 & Hc & Hs & Hd & Hv & Hp & E)]];
    [discriminate|].
  split; [now apply doAppShell_true|].
  split; [exists clientApp, w1, shell, serverApp, w2; now repeat split|].
  rewrite E. now split.
Qed.

(** X6.  Whenever the render task is run, the guard has passed and both
    builds have run: the client application declares a shell, the option
    conditions hold, the shell's application resolved to one whose platform is
    "server", the build task was run on the normalized options and on the
    server options, and the render options are made of these two
    applications. *)
Theorem render_only_after_guard_and_builds (this : BuildCommand)
    (o : BuildTaskOptions) (w : World) (ro : RenderUniversalTaskOptions) :
  In ro (renderCalls (calls (snd (run this o (start w))))) ->
  shellEligible o /\
  exists clientApp w1 shell serverApp w2,
    getAppFromConfig (app o) w = (inr clientApp, w1) /\
    appShell clientApp = Some shell /\
    getAppFromConfig (Some (shell_app shell)) w1 = (inr serverApp, w2) /\
    platform serverApp = "server" /\
    ro = renderUniversalOptions this clientApp shell serverApp /\
    buildCalls (calls (snd (run this o (start w)))) =
      [addTrailingSlash o; serverOptions (addTrailingSlash o) shell].
Proof.
  destruct (run_calls this o w)
    as [E|[E|(clientApp & w1 & shell & Hc & Hs & Hd & E)]];
    [rewrite E; intros []|rewrite E; intros []|].
  destruct E as [E|[E|[E|(serverApp & w2 & Hv & Hp & E)]]]; rewrite E; cbn;
    try (intros []; fail).
  intros [<-|[]]. split; [now apply doAppShell_true|].
  exists clientApp, w1, shell, serverApp, w2. now repeat split.
Qed.

(** X7.  No run calls [getAppFromConfig] more than twice, runs the build
    task more often than it has resolved applications, or runs the render
    task more than once or more often than the build task. *)
Theorem run_call_bounds (this : BuildCommand) (o : BuildTaskOptions) (w : World) :
  let log := calls (snd (run this o (start w))) in
  length (resolveCalls log) <= 2 /\
  length (buildCalls log) <= length (resolveCalls log) /\
  length (renderCalls log) <= length (buildCalls log) /\
  length (renderCalls log) <= 1.
Proof.
  cbv zeta.
  destruct (run_calls this o w)
    as [E|[E|(clientApp & w1 & shell & _ & _ & _ & E)]];
    [rewrite E; cbn; repeat split; lia|rewrite E; cbn; repeat split; lia|].
  destruct E as [E|[E|[E|(serverApp & w2 & _ & _ & E)]]]; rewrite E; cbn;
    repeat split; lia.
Qed.

(** X8.  The applications built are the applications resolved, in the same
    order: the selectors given to the build task are the first selectors
    given to [getAppFromConfig]. *)
Theorem builds_follow_resolutions (this : BuildCommand) (o : BuildTaskOptions)
    (w : World) :
  let log := calls (snd (run this o (start w))) in
  map app (buildCalls log) = firstn (length (buildCalls log)) (resolveCalls log).
Proof.
  cbv zeta.
  destruct (run_calls this o w)
    as [E|[E|(clientApp & w1 & shell & _ & _ & _ & E)]];
    [rewrite E; reflexivity
    |rewrite E; cbn; now rewrite addTrailingSlash_app|].
  destruct E as [E|[E|[E|(serverApp & w2 & _ & _ & E)]]]; rewrite E; cbn;
    now rewrite ?addTrailingSlash_app.
Qed.

(** X9.  Running the command on options already normalized is running it
    on the options: a second run on the object the first run wrote to adds no
    second separator and does the same. *)
Theorem run_on_normalized_options (this : BuildCommand) (o : BuildTaskOptions)
    (m : Machine) :
  run this (addTrailingSlash o) m = run this o m.
Proof. unfold run. now rewrite addTrailingSlash_idempotent. Qed.

(** X10.  The deploy URL given to the build task is absent, empty, or ends
    with the separator, in every build of every run. *)
Theorem builds_get_separated_deployUrl (this : BuildCommand) (o : BuildTaskOptions)
    (w : World) (bo : BuildTaskOptions) :
  In bo (buildCalls (calls (snd (run this o (start w))))) ->
  deployUrl bo = None \/ deployUrl bo = Some "" \/
  exists url, deployUrl bo = Some url /\ endsWithSeparator url.
Proof.
  intros Hin. rewrite (run_builds_deployUrl this o w bo Hin).
  destruct (deployUrl o) as [url|] eqn:Hu.
  - destruct (String.eqb_spec url "") as [->|Hne].
    + right; left. now rewrite (addTrailingSlash_empty o Hu).
    + right; right. destruct (substr_last url =? "/") eqn:Es.
      * apply endsWithSeparator_eqb in Es.
        rewrite (addTrailingSlash_keeps o Hu Es). eauto.
      * assert (Hn : ~ endsWithSeparator url).
        { intros He. apply endsWithSeparator_eqb in He. congruence. }
        rewrite (addTrailingSlash_appends o Hu Hne Hn). cbn.
        exists (url ++ "/"). split; [reflexivity|]. now exists url.
  - left. now rewrite (addTrailingSlash_absent o Hu).
Qed.

End RunOutcomes.

(** X11.  Normalization writes to the deploy URL only, and what it writes
    is the deploy URL it found or, for one that is not empty and does not end
    with the separator, that URL and one separator: an absent URL stays
    absent and nothing is ever removed. *)
Theorem normalization_only_appends (o : BuildTaskOptions) :
  exists v,
    addTrailingSlash o = set_deployUrl v o /\
    (v = deployUrl o \/
     exists url, deployUrl o = Some url /\ url <> "" /\
                 ~ endsWithSeparator url /\ v = Some (url ++ "/")).
Proof.
  destruct (deployUrl o) as [url|] eqn:Hu.
  - destruct (String.eqb_spec url "") as [->|Hne].
    + exists (Some ""). rewrite (addTrailingSlash_empty o Hu). split; [|now left].
      rewrite <- Hu. now destruct o.
    + destruct (substr_last url =? "/") eqn:Es.
      * apply endsWithSeparator_eqb in Es. exists (Some url).
        rewrite (addTrailingSlash_keeps o Hu Es). split; [|now left].
        rewrite <- Hu. now destruct o.
      * assert (Hn : ~ endsWithSeparator url).
        { intros He. apply endsWithSeparator_eqb in He. congruence. }
        exists (Some (url ++ "/")). split.
        -- apply (addTrailingSlash_appends o Hu Hne Hn).
        -- right. exists url. now repeat split.
  - exists None. rewrite (addTrailingSlash_absent o Hu). split; [|now left].
    rewrite <- Hu. now destruct o.
Qed.

(** ** The option table *)

Lemma distinct_NoDup (l : list string) : distinct l = true -> NoDup l.
Proof.
  induction l as [|x l IH]; cbn; [constructor|].
  rewrite andb_true_iff, negb_true_iff. intros [Hx Hl].
  constructor; [|auto].
  intros Hin. assert (E : existsb (String.eqb x) l = true).
  { apply existsb_exists. exists x. split; [exact Hin|apply String.eqb_refl]. }
  congruence.
Qed.

(** X12.  The names and aliases of the command's options are pairwise
    distinct: no two options share a name or an alias, and no alias of an
    option is the name of another. *)
Theorem option_handles_distinct : NoDup (OptionTable.handles OptionTable.options).
Proof. apply distinct_NoDup. vm_compute. reflexivity. Qed.

(** X13.  The defaults the table reads from [buildConfigDefaults] are read
    under the keys it was fetched with: each key fetched is read by one
    option, and no option reads a key that was not fetched. *)
Theorem config_defaults_fetched :
  Permutation (OptionTable.configKeys OptionTable.options) OptionTable.buildConfigPaths /\
  NoDup OptionTable.buildConfigPaths /\
  forall o k, In o OptionTable.options -> OptionTable.configKey o = Some k ->
              In k OptionTable.buildConfigPaths.
Proof.
  assert (Hd : NoDup OptionTable.buildConfigPaths)
    by (apply distinct_NoDup; vm_compute; reflexivity).
  assert (Hp : Permutation (OptionTable.configKeys OptionTable.options)
                           OptionTable.buildConfigPaths).
  { apply NoDup_Permutation; [apply distinct_NoDup; vm_compute; reflexivity|exact Hd|].
    intros k. vm_compute. tauto. }
  split; [exact Hp|]. split; [exact Hd|].
  intros o k Hin Hk. apply (Permutation_in k Hp).
  revert Hin. generalize OptionTable.options. intros table.
  induction table as [|o' table IH]; [intros []|].
  intros [->|Hin]; cbn; [rewrite Hk; now left|].
  destruct (OptionTable.configKey o'); [right|]; auto.
Qed.

(** ** The failures on the projects *)

Section OnHealthyProject.

#[local] Existing Instance Faulty.healthy.

Lemma resolution_failure_stops_run_witness :
  (fst (run Scenario.command (Scenario.prodOptions (Some "nope") None) (start []))
     = Threw (Rejected "no app nope") /\
   buildCalls
     (calls (snd (run Scenario.command (Scenario.prodOptions (Some "nope") None)
                      (start [])))) = []) /\
  (fst (run Scenario.command (Scenario.prodOptions (Some "dangling") None) (start []))
     = Threw (Rejected "no app missing") /\
   resolveCalls
     (calls (snd (run Scenario.command (Scenario.prodOptions (Some "dangling") None)
                      (start [])))) = [Some "dangling"; Some "missing"]).
Proof.
  split.
  - destruct (@resolution_failure_stops_run Faulty.healthy Scenario.command
                (Scenario.prodOptions (Some "nope") None) []) as [Hclient _].
    destruct (Hclient "no app nope" [] eq_refl) as (H1 & _ & _ & H4 & _).
    split; assumption.
  - destruct (@resolution_failure_stops_run Faulty.healthy Scenario.command
                (Scenario.prodOptions (Some "dangling") None) []) as [_ Hserver].
    destruct (Hserver Faulty.danglingApp [] (mkAppShell "missing" "/")
                "no app missing" [] eq_refl eq_refl
                (conj eq_refl (conj (or_introl eq_refl) eq_refl)) eq_refl)
      as (H1 & _ & H3 & _).
    split; assumption.
Defined.

End OnHealthyProject.

Section OnClientBuildFailure.

#[local] Existing Instance Faulty.clientBuildFails.

Lemma client_build_failure_stops_pipeline_witness :
  fst (run Scenario.command (Scenario.prodOptions None None) (start []))
    = Threw (Rejected "cannot build default") /\
  world (snd (run Scenario.command (Scenario.prodOptions None None) (start [])))
    = ["partial bundle of default"] /\
  buildCalls
    (calls (snd (run Scenario.command (Scenario.prodOptions None None) (start []))))
    = [Scenario.prodOptions None None].
Proof.
  destruct (@client_build_failure_stops_pipeline Faulty.clientBuildFails
              Scenario.command (Scenario.prodOptions None None) [] [] []
              ["partial bundle of default"]
              Scenario.clientApp Scenario.serverApp (mkAppShell "ssr" "/")
              "cannot build default"
              eq_refl eq_refl (conj eq_refl (conj (or_introl eq_refl) eq_refl))
              eq_refl eq_refl eq_refl)
    as (H1 & H2 & H3 & _).
  repeat split; assumption.
Defined.

End OnClientBuildFailure.

Section OnServerBuildFailure.

#[local] Existing Instance Faulty.serverBuildFails.

Lemma server_build_failure_skips_render_witness :
  fst (run Scenario.command (Scenario.prodOptions None None) (start []))
    = Threw (Rejected "cannot build ssr") /\
  world (snd (run Scenario.command (Scenario.prodOptions None None) (start [])))
    = ["bundle of default"; "partial bundle of ssr"] /\
  renderCalls
    (calls (snd (run Scenario.command (Scenario.prodOptions None None) (start []))))
    = [].
Proof.
  destruct (@server_build_failure_skips_render Faulty.serverBuildFails
              Scenario.command (Scenario.prodOptions None None) [] [] []
              ["bundle of default"] ["bundle of default"; "partial bundle of ssr"]
              Scenario.clientApp Scenario.serverApp (mkAppShell "ssr" "/")
              "bundle of default" "cannot build ssr"
              eq_refl eq_refl (conj eq_refl (conj (or_introl eq_refl) eq_refl))
              eq_refl eq_refl eq_refl eq_refl)
    as (H1 & H2 & _ & H4).
  repeat split; assumption.
Defined.

End OnServerBuildFailure.

Section OnProjectOutcomes.

#[local] Existing Instance Scenario.project.

Lemma guard_error_only_from_guard_witness :
  fst (run Scenario.command (Scenario.prodOptions (Some "broken") None) (start []))
    = Threw (SilentError platformMessage) /\
  shellEligible (Scenario.prodOptions (Some "broken") None) /\
  buildCalls
    (calls (snd (run Scenario.command (Scenario.prodOptions (Some "broken") None)
                     (start [])))) = [].
Proof.
  split; [reflexivity|].
  destruct (@guard_error_only_from_guard Scenario.project Scenario.command
              (Scenario.prodOptions (Some "broken") None) [] eq_refl)
    as (H2 & _ & H4 & _).
  split; assumption.
Defined.

Lemma render_only_after_guard_and_builds_witness :
  In (mkRenderOptions "/work/dist/index.html" "/" "/work/dist-server"
                      "/work/dist/index.html")
     (renderCalls
        (calls (snd (run Scenario.command (Scenario.prodOptions None None) (start [])))))
  /\ shellEligible (Scenario.prodOptions None None).
Proof.
  assert (Hin : In (mkRenderOptions "/work/dist/index.html" "/" "/work/dist-server"
                                    "/work/dist/index.html")
                   (renderCalls
                      (calls (snd (run Scenario.command
                                       (Scenario.prodOptions None None) (start []))))))
    by (left; reflexivity).
  split; [exact Hin|].
  exact (proj1 (@render_only_after_guard_and_builds Scenario.project Scenario.command
                  (Scenario.prodOptions None None) [] _ Hin)).
Defined.

Lemma builds_get_separated_deployUrl_witness :
  In (Scenario.prodOptions None (Some "https://cdn.example.com/assets/"))
     (buildCalls
        (calls (snd (run Scenario.command
                         (Scenario.prodOptions None (Some "https://cdn.example.com/assets"))
                         (start [])))))
  /\ (deployUrl (Scenario.prodOptions None (Some "https://cdn.example.com/assets/")) = None
      \/ deployUrl (Scenario.prodOptions None (Some "https://cdn.example.com/assets/"))
          = Some ""
      \/ exists url,
           deployUrl (Scenario.prodOptions None (Some "https://cdn.example.com/assets/"))
           = Some url /\ endsWithSeparator url).
Proof.
  assert (Hin : In (Scenario.prodOptions None (Some "https://cdn.example.com/assets/"))
                   (buildCalls
                      (calls (snd (run Scenario.command
                                       (Scenario.prodOptions None
                                          (Some "https://cdn.example.com/assets"))
                                       (start []))))))
    by (left; reflexivity).
  split; [exact Hin|].
  exact (@builds_get_separated_deployUrl Scenario.project Scenario.command
           (Scenario.prodOptions None (Some "https://cdn.example.com/assets")) [] _ Hin).
Defined.

End OnProjectOutcomes.
